(** * Wait-duration resolution of the Step Functions interpreter

    A shallow embedding of
    [moto/stepfunctions/parser/asl/component/state/wait/wait_function/seconds_path.py]:
    the classes [SecondsPath] and [SecondsPathVar], their shared validator
    [_validate_seconds_value], and the two [_get_wait_seconds] methods.

    Python values are an inductive type, the evaluation stack is a Python
    list (the top is the LAST element), and a method is a computation in a
    state-and-exception monad over the environment: a raise keeps the
    mutations made before it, as in Python. *)

From Stdlib Require Import ZArith List Ascii String Bool Lia DecimalString.
From Stdlib Require Import PrimFloat SpecFloat FloatOps.
Import ListNotations.
Set Warnings "-register-all".
Open Scope string_scope.

(* ================================================================== *)
(** ** Python values and the builtins the module relies on *)

Module Py.

(** The values a decoded JSON document is made of. [bool] and [int] are
    separate constructors; that [bool] is a subclass of [int] is stated
    by [isinstance_int] below. A [float] is an IEEE binary64; a [dict]
    keeps its insertion order. *)
Inductive value : Type :=
| VNone
| VBool (b : bool)
| VInt (z : Z)
| VFloat (f : float)
| VStr (s : string)
| VList (items : list value)
| VDict (entries : list (string * value)).

(** [repr] of a float (shortest round-trip digits) and of a string
    (quote selection and escapes) are interpreter builtins; they are
    taken as an interface. *)
Class Builtins : Type := {
  float_repr : float -> string;
  str_repr : string -> string
}.

(** [isinstance(v, int)]: true for an [int] and, [bool] being a subclass
    of [int], for [True] and [False]. *)
Definition isinstance_int (v : value) : bool :=
  match v with
  | VInt _ | VBool _ => true
  | VNone | VFloat _ | VStr _ | VList _ | VDict _ => false
  end.

(** The integer an instance of [int] stands for: [True == 1], [False == 0]. *)
Definition int_value (v : value) : option Z :=
  match v with
  | VInt z => Some z
  | VBool true => Some 1%Z
  | VBool false => Some 0%Z
  | VNone | VFloat _ | VStr _ | VList _ | VDict _ => None
  end.

(** [v >= 0] for an instance of [int]. The module evaluates it only to
    the right of [isinstance(v, int) and], so never on another value. *)
Definition ge_zero (v : value) : bool :=
  match int_value v with
  | Some z => (z >=? 0)%Z
  | None => false
  end.

(** [str(z)] for an [int]: decimal digits, a leading [-] when negative. *)
Definition str_of_int (z : Z) : string := NilZero.string_of_int (Z.to_int z).

(** [", ".join(parts)] *)
Fixpoint join (sep : string) (parts : list string) : string :=
  match parts with
  | [] => ""
  | [p] => p
  | p :: rest => p ++ sep ++ join sep rest
  end.

Section Rendering.
Context `{Builtins}.

(** [repr(v)] *)
Fixpoint repr (v : value) : string :=
  match v with
  | VNone => "None"
  | VBool true => "True"
  | VBool false => "False"
  | VInt z => str_of_int z
  | VFloat f => float_repr f
  | VStr s => str_repr s
  | VList items => "[" ++ join ", " (map repr items) ++ "]"
  | VDict entries =>
      "{" ++ join ", " (map (fun kv : string * value =>
                             let (k, x) := kv in
                             str_repr k ++ ": " ++ repr x) entries)
          ++ "}"
  end.

(** [str(v)], which is what a replacement field [{v}] of an f-string
    inserts: a string is inserted as it is, anything else as its [repr]. *)
Definition str (v : value) : string :=
  match v with
  | VStr s => s
  | _ => repr v
  end.
End Rendering.

(** [l[-1]] and [l.pop()] both look at the last element of a list;
    [split_last l] is [None] on the empty list, where Python raises
    [IndexError], and otherwise the list without its last element
    together with that element. *)
Fixpoint split_last {A : Type} (l : list A) : option (list A * A) :=
  match l with
  | [] => None
  | x :: rest =>
      match split_last rest with
      | None => Some ([], x)
      | Some (init, y) => Some (x :: init, y)
      end
  end.

End Py.
Import Py.

(* ================================================================== *)
(** ** The collaborators imported by the module *)

(** Modelled from the spec: [HistoryEventType] of [moto.stepfunctions.parser.api]
    is a string tag, and the tag of a failed execution is "ExecutionFailed". *)
Definition HistoryEventType : Type := string.

(** Modelled from the spec: [HistoryEventType.ExecutionFailed], the event
    type of the shared failure shape. *)
Definition ExecutionFailed : HistoryEventType := "ExecutionFailed".

(** What the module imports and does not define: the enumeration
    [StatesErrorNameType] with its member [StatesRuntime] and its method
    [to_name], the part of [Environment] other than its stack, and
    [extract_json], which returns the value a path selects in a document
    or raises (the left injection carries the exception's description). *)
Class Collaborators : Type := {
  StatesErrorNameType : Type;
  StatesRuntime : StatesErrorNameType;
  to_name : StatesErrorNameType -> string;
  EnvOther : Type;
  extract_json : string -> value -> string + value
}.

Section Model.
Context `{Builtins} `{Collaborators}.

(** [Environment]: the evaluation stack, a Python list whose top is its
    last element, and everything else the environment holds. *)
Record Environment : Type := mkEnvironment {
  stack : list value;
  other : EnvOther
}.

Definition set_stack (env : Environment) (s : list value) : Environment :=
  {| stack := s; other := other env |}.

(** [StatesErrorName(typ=...)] *)
Record StatesErrorName : Type := mkStatesErrorName {
  typ : StatesErrorNameType
}.

(** [ExecutionFailedEventDetails(error=..., cause=...)] *)
Record ExecutionFailedEventDetails : Type := mkExecutionFailedEventDetails {
  error : string;
  cause : string
}.

(** [EventDetails(executionFailedEventDetails=...)]: a dictionary of
    optional entries, of which this module sets one. *)
Record EventDetails : Type := mkEventDetails {
  executionFailedEventDetails : option ExecutionFailedEventDetails
}.

(** [FailureEvent(env=..., error_name=..., event_type=..., event_details=...)].
    [fe_env] is the environment the event refers to, as it is when the
    event is raised. *)
Record FailureEvent : Type := mkFailureEvent {
  fe_env : Environment;
  error_name : StatesErrorName;
  event_type : HistoryEventType;
  event_details : EventDetails
}.

(** The exceptions a wait function can end with. *)
Inductive exn : Type :=
| FailureEventException (failure_event : FailureEvent)
| IndexError (msg : string)
| Raised (description : string).

(** A method run against an environment either returns or raises, and
    leaves the environment as it has mutated it so far. *)
Definition M (A : Type) : Type := Environment -> (exn + A) * Environment.

Definition ret {A : Type} (a : A) : M A := fun env => (inr a, env).

Definition raise {A : Type} (e : exn) : M A := fun env => (inl e, env).

Definition bind {A B : Type} (m : M A) (k : A -> M B) : M B :=
  fun env =>
    match m env with
    | (inr a, env') => k a env'
    | (inl e, env') => (inl e, env')
    end.

(** The environment object itself, as passed in [env=env]. *)
Definition get_env : M Environment := fun env => (inr env, env).

(** [env.stack[-1]] *)
Definition stack_top : M value :=
  fun env =>
    match split_last (stack env) with
    | Some (_, v) => (inr v, env)
    | None => (inl (IndexError "list index out of range"), env)
    end.

(** [env.stack.pop()] *)
Definition stack_pop : M value :=
  fun env =>
    match split_last (stack env) with
    | Some (init, v) => (inr v, set_stack env init)
    | None => (inl (IndexError "pop from empty list"), env)
    end.

(** A call of [extract_json]: its exception, if any, propagates. *)
Definition call_extract_json (path : string) (inp : value) : M value :=
  match extract_json path inp with
  | inr v => ret v
  | inl description => raise (Raised description)
  end.

End Model.

Declare Scope py_scope.
Delimit Scope py_scope with py.
Notation "x <- m ;; k" := (bind m (fun x => k))
  (at level 61, m at next level, right associativity) : py_scope.
Notation "m ;;; k" := (bind m (fun _ => k))
  (at level 61, right associativity) : py_scope.
Open Scope py_scope.

(** [VariableSample]: the expression text and the [eval] method, which
    runs against the environment. *)
Record VariableSample `{Collaborators} : Type := mkVariableSample {
  expression : string;
  eval : M unit
}.

(* ================================================================== *)
(** ** class SecondsPath(WaitFunction) *)

Module SecondsPath.
Section SecondsPath.
Context `{Builtins} `{Collaborators}.

Record t : Type := mk { path : string }.

Definition __init__ (path : string) : t := {| path := path |}.

Definition _validate_seconds_value (self : t) (seconds : value) : M unit :=
  if isinstance_int seconds && ge_zero seconds then ret tt
  else
    let error_type := StatesRuntime in
    let assignment_description := path self ++ " == " ++ str seconds in
    let cause :=
      if negb (isinstance_int seconds)
      then "The SecondsPath parameter cannot be parsed as a long value: "
           ++ assignment_description
      else (* seconds < 0 *)
           "The SecondsPath parameter references a negative value: "
           ++ assignment_description in
    env <- get_env ;;
    raise (FailureEventException
             {| fe_env := env;
                error_name := {| typ := error_type |};
                event_type := ExecutionFailed;
                event_details :=
                  {| executionFailedEventDetails :=
                       Some {| error := to_name error_type;
                               cause := cause |} |} |}).

Definition _get_wait_seconds (self : t) : M value :=
  inp <- stack_top ;;
  seconds <- call_extract_json (path self) inp ;;
  _validate_seconds_value self seconds ;;;
  ret seconds.

End SecondsPath.
End SecondsPath.

(* ================================================================== *)
(** ** class SecondsPathVar(SecondsPath) *)

Module SecondsPathVar.
Section SecondsPathVar.
Context `{Builtins} `{Collaborators}.

(** An instance has the fields of its base class, set by
    [super().__init__], and [variable_sample]. *)
Record t : Type := mk {
  super : SecondsPath.t;
  variable_sample : VariableSample
}.

Definition __init__ (variable_sample : VariableSample) : t :=
  {| super := SecondsPath.__init__ (expression variable_sample);
     variable_sample := variable_sample |}.

Definition _get_wait_seconds (self : t) : M value :=
  eval (variable_sample self) ;;;
  seconds <- stack_pop ;;
  SecondsPath._validate_seconds_value (super self) seconds ;;;
  ret seconds.

End SecondsPathVar.
End SecondsPathVar.

(* ================================================================== *)
(** ** Vocabulary of the statements *)

(** The values that are of no integral kind: null, floats, strings,
    lists and objects. *)
Definition non_integral (v : value) : Prop :=
  match v with
  | VNone | VFloat _ | VStr _ | VList _ | VDict _ => True
  | VBool _ | VInt _ => False
  end.

Section Vocabulary.
Context `{Collaborators}.

(** The contract of the structured-expression evaluator: run against
    [env], [eval] returns normally and has pushed exactly one value,
    [v], onto the stack, giving [env']. *)
Definition eval_pushes (vs : VariableSample) (env : Environment)
                       (v : value) (env' : Environment) : Prop :=
  eval vs env = (inr tt, env') /\ stack env' = (stack env ++ [v])%list.

(** The cause recorded in a failure event. *)
Definition failure_cause (fe : FailureEvent) : option string :=
  option_map cause (executionFailedEventDetails (event_details fe)).

(** What a failure event says, apart from the environment it refers to. *)
Definition failure_contents (fe : FailureEvent)
  : StatesErrorName * HistoryEventType * EventDetails :=
  (error_name fe, event_type fe, event_details fe).

(** What a caller observes of a run: the returned value, the contents
    of the failure event, or the other exception. *)
Inductive observation : Type :=
| Returned (v : value)
| Failed (contents : StatesErrorName * HistoryEventType * EventDetails)
| Crashed (e : exn).

Definition observe (r : (exn + value) * Environment) : observation :=
  match fst r with
  | inr v => Returned v
  | inl (FailureEventException fe) => Failed (failure_contents fe)
  | inl e => Crashed e
  end.

(** [env.stack.append(v)] *)
Definition stack_push (v : value) : M unit :=
  fun env => (inr tt, set_stack env (stack env ++ [v])%list).

End Vocabulary.

(** The values the validator lets through: an [int] that is not below
    zero, and the two booleans. *)
Definition accepted_seconds (v : value) : Prop :=
  (exists n : Z, v = VInt n /\ (0 <= n)%Z) \/ (exists b : bool, v = VBool b).

Section Outcomes.
Context `{Collaborators}.

(** The cause of the failure event a run of the validator ended with,
    if it ended with one. *)
Definition raised_cause (r : (exn + unit) * Environment) : option string :=
  match fst r with
  | inl (FailureEventException fe) => failure_cause fe
  | _ => None
  end.

(** The value on top of the stack of an environment, if any. *)
Definition top_of_stack (env : Environment) : option value :=
  option_map snd (split_last (stack env)).

End Outcomes.

(* ================================================================== *)
(** ** A sample instance of the interfaces, to run the model on documents *)

Module Sample.

(** The float [f] as an integer, when it is one. *)
Definition integral_float (f : float) : option Z :=
  match Prim2SF f with
  | S754_finite s m e =>
      let z := if s then Zneg m else Zpos m in
      if (0 <=? e)%Z then Some (z * 2 ^ e)%Z
      else if (Zpos m mod 2 ^ (- e) =? 0)%Z then Some (z / 2 ^ (- e))%Z
      else None
  | _ => None
  end.

(** Python's [repr] on the floats the examples use: an integral float
    below [1e16] in magnitude prints as its integer followed by [.0].
    Elsewhere this sample prints a placeholder, not Python's digits. *)
Definition float_repr (f : float) : string :=
  match Prim2SF f with
  | S754_zero false => "0.0"
  | S754_zero true => "-0.0"
  | S754_infinity false => "inf"
  | S754_infinity true => "-inf"
  | S754_nan => "nan"
  | S754_finite _ _ _ =>
      match integral_float f with
      | Some z => if (Z.abs z <? 10 ^ 16)%Z then str_of_int z ++ ".0"
                  else "<float>"
      | None => "<float>"
      end
  end.

(** Python's [repr] on the strings the examples use: a string of
    printable characters without quote or backslash prints between
    single quotes. *)
Definition str_repr (s : string) : string := "'" ++ s ++ "'".

Definition builtins : Builtins :=
  Build_Builtins float_repr str_repr.

(** [d[key]] on the entries of a [dict]: the first entry under [key]. *)
Fixpoint lookup (key : string) (entries : list (string * value)) : option value :=
  match entries with
  | [] => None
  | (k, v) :: rest => if String.eqb k key then Some v else lookup key rest
  end.

(** The paths [$] and [$.key] only: the document itself, or its entry
    under [key]; anything else raises. *)
Definition extract_json (path : string) (doc : value) : string + value :=
  match path with
  | "$" => inr doc
  | String "$"%char (String "."%char key) =>
      match doc with
      | VDict entries =>
          match lookup key entries with
          | Some v => inr v
          | None => inl "NoSuchJsonPathError"
          end
      | _ => inl "NoSuchJsonPathError"
      end
  | _ => inl "NoSuchJsonPathError"
  end.

Inductive StatesErrorNameType : Type :=
| StatesRuntime
| StatesTimeout.

Definition to_name (typ : StatesErrorNameType) : string :=
  match typ with
  | StatesRuntime => "States.Runtime"
  | StatesTimeout => "States.Timeout"
  end.

Definition collaborators : Collaborators :=
  Build_Collaborators StatesErrorNameType StatesRuntime to_name unit
                      extract_json.

#[local] Existing Instance builtins.
#[local] Existing Instance collaborators.

(** An environment whose stack holds a marker and, on top of it, the
    state's input [inp]. *)
Definition env (inp : value) : Environment :=
  {| stack := [VStr "below"; inp]; other := tt |}.

(** The input document [{"wait": v}]. *)
Definition doc (v : value) : value := VDict [("wait", v)].

(** A variable sample of expression text [$.wait] whose evaluation
    pushes [v]. *)
Definition variable (v : value) : VariableSample :=
  {| expression := "$.wait"; eval := stack_push v |}.

(** A variable sample whose evaluation raises. *)
Definition raising_variable (description : string) : VariableSample :=
  {| expression := "$.wait"; eval := raise (Raised description) |}.

(** A variable sample whose evaluation returns without pushing. *)
Definition silent_variable : VariableSample :=
  {| expression := "$.wait"; eval := ret tt |}.

(** A variable sample whose evaluation pushes [v] and then [w]. *)
Definition pushing_two (v w : value) : VariableSample :=
  {| expression := "$.wait"; eval := stack_push v ;;; stack_push w |}.

(** The environment with an empty stack. *)
Definition empty_env : Environment := {| stack := []; other := tt |}.

End Sample.

(* ================================================================== *)
(** ** Lemmas on the list operations and on the validator *)

Lemma split_last_snoc {A : Type} (l : list A) (x : A) :
  split_last (l ++ [x])%list = Some (l, x).
Proof.
  induction l as [|a l IH]; simpl.
  - reflexivity.
  - rewrite IH. reflexivity.
Qed.

Lemma split_last_None {A : Type} (l : list A) :
  split_last l = None <-> l = [].
Proof.
  split.
  - destruct l as [|a l]; [reflexivity|].
    simpl. destruct (split_last l) as [[init y]|]; discriminate.
  - intros ->. reflexivity.
Qed.

Lemma split_last_Some {A : Type} (l init : list A) (x : A) :
  split_last l = Some (init, x) <-> l = (init ++ [x])%list.
Proof.
  split.
  - revert init. induction l as [|a l IH]; simpl; intros init E.
    + discriminate.
    + destruct (split_last l) as [[init' y]|] eqn:El.
      * inversion E; subst. simpl. f_equal. now apply IH.
      * inversion E; subst. apply split_last_None in El. now subst.
  - intros ->. apply split_last_snoc.
Qed.

Lemma nonempty_snoc {A : Type} (l : list A) :
  l <> [] -> exists init x, l = (init ++ [x])%list.
Proof.
  intros Hne. destruct (split_last l) as [[init x]|] eqn:E.
  - exists init, x. now apply split_last_Some.
  - apply split_last_None in E. contradiction.
Qed.

Section Steps.
Context `{Builtins} `{Collaborators}.

Lemma stack_top_snoc (env : Environment) (init : list value) (v : value) :
  stack env = (init ++ [v])%list -> stack_top env = (inr v, env).
Proof.
  intros E. unfold stack_top. rewrite E, split_last_snoc. reflexivity.
Qed.

Lemma stack_pop_snoc (env : Environment) (init : list value) (v : value) :
  stack env = (init ++ [v])%list ->
  stack_pop env = (inr v, set_stack env init).
Proof.
  intros E. unfold stack_pop. rewrite E, split_last_snoc. reflexivity.
Qed.

Lemma stack_top_empty (env : Environment) :
  stack env = [] ->
  stack_top env = (inl (IndexError "list index out of range"), env).
Proof.
  intros E. unfold stack_top. rewrite E. reflexivity.
Qed.

(** The validator returns on an instance of [int] that is not below
    zero, and otherwise raises; it never touches the environment. *)
Lemma validate_returns (self : SecondsPath.t) (v : value) (env : Environment) :
  isinstance_int v && ge_zero v = true ->
  SecondsPath._validate_seconds_value self v env = (inr tt, env).
Proof.
  intros E. unfold SecondsPath._validate_seconds_value. rewrite E.
  reflexivity.
Qed.

Lemma validate_raises (self : SecondsPath.t) (v : value) (env : Environment) :
  isinstance_int v && ge_zero v = false ->
  exists fe,
    SecondsPath._validate_seconds_value self v env
      = (inl (FailureEventException fe), env)
    /\ fe_env fe = env
    /\ error_name fe = {| typ := StatesRuntime |}
    /\ event_type fe = ExecutionFailed
    /\ event_details fe =
         {| executionFailedEventDetails :=
              Some {| error := to_name StatesRuntime;
                      cause :=
                        (if isinstance_int v
                         then "The SecondsPath parameter references a negative value: "
                         else "The SecondsPath parameter cannot be parsed as a long value: ")
                        ++ SecondsPath.path self ++ " == " ++ str v |} |}.
Proof.
  intros E. unfold SecondsPath._validate_seconds_value. rewrite E.
  eexists. split; [reflexivity|]. simpl.
  repeat split. destruct (isinstance_int v); reflexivity.
Qed.

Lemma validate_frame (self : SecondsPath.t) (v : value) (env : Environment) :
  snd (SecondsPath._validate_seconds_value self v env) = env.
Proof.
  unfold SecondsPath._validate_seconds_value.
  destruct (isinstance_int v && ge_zero v); reflexivity.
Qed.

(** The path-based resolver on a stack whose top is [inp], once the
    extractor has returned [v]: the validator decides. *)
Lemma path_run (path : string) (env : Environment)
               (init : list value) (inp v : value) :
  stack env = (init ++ [inp])%list ->
  extract_json path inp = inr v ->
  SecondsPath._get_wait_seconds (SecondsPath.__init__ path) env
  = (SecondsPath._validate_seconds_value (SecondsPath.__init__ path) v ;;;
     ret v) env.
Proof.
  intros Hs He. unfold SecondsPath._get_wait_seconds.
  unfold bind at 1. rewrite (stack_top_snoc _ _ _ Hs).
  unfold bind at 1, call_extract_json. cbn [SecondsPath.path SecondsPath.__init__].
  rewrite He. reflexivity.
Qed.

(** The same, once the extractor has raised: its exception propagates. *)
Lemma path_run_raised (path : string) (env : Environment)
                      (init : list value) (inp : value) (d : string) :
  stack env = (init ++ [inp])%list ->
  extract_json path inp = inl d ->
  SecondsPath._get_wait_seconds (SecondsPath.__init__ path) env
  = (inl (Raised d), env).
Proof.
  intros Hs He. unfold SecondsPath._get_wait_seconds.
  unfold bind at 1. rewrite (stack_top_snoc _ _ _ Hs).
  unfold bind at 1, call_extract_json. cbn [SecondsPath.path SecondsPath.__init__].
  rewrite He. reflexivity.
Qed.

(** The variable-based resolver, once [eval] has pushed [v]: the value
    is popped, and the validator of the base class decides. *)
Lemma var_run (vs : VariableSample) (env env' : Environment) (v : value) :
  eval_pushes vs env v env' ->
  SecondsPathVar._get_wait_seconds (SecondsPathVar.__init__ vs) env
  = (SecondsPath._validate_seconds_value
       (SecondsPath.__init__ (expression vs)) v ;;;
     ret v) (set_stack env' (stack env)).
Proof.
  intros [He Hs]. unfold SecondsPathVar._get_wait_seconds.
  unfold bind at 1.
  cbn [SecondsPathVar.variable_sample SecondsPathVar.__init__]. rewrite He.
  unfold bind at 1. rewrite (stack_pop_snoc _ _ _ Hs). reflexivity.
Qed.

End Steps.

(* ================================================================== *)
(** ** The properties of wait-duration resolution *)

Section Properties.
Context `{Builtins} `{Collaborators}.

Lemma non_integral_isinstance (v : value) :
  non_integral v <-> isinstance_int v = false.
Proof.
  destruct v; simpl; split; intros E;
    try reflexivity; try exact I; try contradiction; discriminate.
Qed.

Lemma validate_nonneg (self : SecondsPath.t) (n : Z) (env : Environment) :
  (0 <= n)%Z ->
  SecondsPath._validate_seconds_value self (VInt n) env = (inr tt, env).
Proof.
  intros Hn. apply validate_returns. simpl. unfold ge_zero. simpl.
  apply Z.geb_le. exact Hn.
Qed.

Lemma validate_negative (self : SecondsPath.t) (n : Z) (env : Environment) :
  (n < 0)%Z ->
  exists fe,
    SecondsPath._validate_seconds_value self (VInt n) env
      = (inl (FailureEventException fe), env)
    /\ failure_cause fe =
         Some ("The SecondsPath parameter references a negative value: "
               ++ SecondsPath.path self ++ " == " ++ str_of_int n).
Proof.
  intros Hn.
  destruct (validate_raises self (VInt n) env) as (fe & Hrun & _ & _ & _ & Hd).
  - simpl. unfold ge_zero. simpl.
    destruct (n >=? 0)%Z eqn:E; [|reflexivity].
    apply Z.geb_le in E. lia.
  - exists fe. split; [exact Hrun|].
    unfold failure_cause. rewrite Hd. reflexivity.
Qed.

Lemma validate_non_integral (self : SecondsPath.t) (v : value) (env : Environment) :
  non_integral v ->
  exists fe,
    SecondsPath._validate_seconds_value self v env
      = (inl (FailureEventException fe), env)
    /\ failure_cause fe =
         Some ("The SecondsPath parameter cannot be parsed as a long value: "
               ++ SecondsPath.path self ++ " == " ++ str v).
Proof.
  intros Hv. apply non_integral_isinstance in Hv.
  destruct (validate_raises self v env) as (fe & Hrun & _ & _ & _ & Hd).
  - rewrite Hv. reflexivity.
  - exists fe. split; [exact Hrun|].
    unfold failure_cause. rewrite Hd, Hv. reflexivity.
Qed.

(** C1: when the extracted raw value is an integer [n >= 0], resolution
    returns [n] itself, by the path-based resolver (the path selects
    [n] in the top of the stack) and by the variable-based one (the
    expression's evaluation pushes [n]); the latter leaves the stack
    as it was before the evaluation. *)
Theorem nonneg_seconds_returned_unchanged
    (n : Z) (path : string) (env : Environment) (init : list value)
    (inp : value) (vs : VariableSample) (envv envv' : Environment) :
  (0 <= n)%Z ->
  stack env = (init ++ [inp])%list ->
  extract_json path inp = inr (VInt n) ->
  eval_pushes vs envv (VInt n) envv' ->
  SecondsPath._get_wait_seconds (SecondsPath.__init__ path) env
    = (inr (VInt n), env)
  /\ SecondsPathVar._get_wait_seconds (SecondsPathVar.__init__ vs) envv
    = (inr (VInt n), set_stack envv' (stack envv)).
Proof.
  intros Hn Hs He Hp. split.
  - rewrite (path_run _ _ _ _ _ Hs He). unfold bind.
    rewrite (validate_nonneg _ _ _ Hn). reflexivity.
  - rewrite (var_run _ _ _ _ Hp). unfold bind.
    rewrite (validate_nonneg _ _ _ Hn). reflexivity.
Qed.

(** C2: when the extracted raw value is an integer [n < 0], both
    resolvers raise a failure event, and its cause is
    "The SecondsPath parameter references a negative value: " followed
    by the path (or the expression text), " == " and [n] in decimal. *)
Theorem negative_seconds_raise_failure
    (n : Z) (path : string) (env : Environment) (init : list value)
    (inp : value) (vs : VariableSample) (envv envv' : Environment) :
  (n < 0)%Z ->
  stack env = (init ++ [inp])%list ->
  extract_json path inp = inr (VInt n) ->
  eval_pushes vs envv (VInt n) envv' ->
  (exists fe,
      SecondsPath._get_wait_seconds (SecondsPath.__init__ path) env
        = (inl (FailureEventException fe), env)
      /\ failure_cause fe =
           Some ("The SecondsPath parameter references a negative value: "
                 ++ path ++ " == " ++ str_of_int n))
  /\ (exists fe,
      SecondsPathVar._get_wait_seconds (SecondsPathVar.__init__ vs) envv
        = (inl (FailureEventException fe), set_stack envv' (stack envv))
      /\ failure_cause fe =
           Some ("The SecondsPath parameter references a negative value: "
                 ++ expression vs ++ " == " ++ str_of_int n)).
Proof.
  intros Hn Hs He Hp. split.
  - destruct (validate_negative (SecondsPath.__init__ path) n env Hn)
      as (fe & Hrun & Hc).
    exists fe. split; [|exact Hc].
    rewrite (path_run _ _ _ _ _ Hs He). unfold bind. rewrite Hrun.
    reflexivity.
  - destruct (validate_negative (SecondsPath.__init__ (expression vs)) n
                (set_stack envv' (stack envv)) Hn) as (fe & Hrun & Hc).
    exists fe. split; [|exact Hc].
    rewrite (var_run _ _ _ _ Hp). unfold bind. rewrite Hrun. reflexivity.
Qed.

(** C3: when the extracted raw value [v] is of no integral kind (null,
    a float, whatever its fractional part, a string, a list or an
    object), both resolvers raise a failure event instead of returning
    a number, and its cause is
    "The SecondsPath parameter cannot be parsed as a long value: "
    followed by the path (or the expression text), " == " and [str(v)]. *)
Theorem non_integral_seconds_raise_failure
    (v : value) (path : string) (env : Environment) (init : list value)
    (inp : value) (vs : VariableSample) (envv envv' : Environment) :
  non_integral v ->
  stack env = (init ++ [inp])%list ->
  extract_json path inp = inr v ->
  eval_pushes vs envv v envv' ->
  (exists fe,
      SecondsPath._get_wait_seconds (SecondsPath.__init__ path) env
        = (inl (FailureEventException fe), env)
      /\ failure_cause fe =
           Some ("The SecondsPath parameter cannot be parsed as a long value: "
                 ++ path ++ " == " ++ str v))
  /\ (exists fe,
      SecondsPathVar._get_wait_seconds (SecondsPathVar.__init__ vs) envv
        = (inl (FailureEventException fe), set_stack envv' (stack envv))
      /\ failure_cause fe =
           Some ("The SecondsPath parameter cannot be parsed as a long value: "
                 ++ expression vs ++ " == " ++ str v)).
Proof.
  intros Hv Hs He Hp. split.
  - destruct (validate_non_integral (SecondsPath.__init__ path) v env Hv)
      as (fe & Hrun & Hc).
    exists fe. split; [|exact Hc].
    rewrite (path_run _ _ _ _ _ Hs He). unfold bind. rewrite Hrun.
    reflexivity.
  - destruct (validate_non_integral (SecondsPath.__init__ (expression vs)) v
                (set_stack envv' (stack envv)) Hv) as (fe & Hrun & Hc).
    exists fe. split; [|exact Hc].
    rewrite (var_run _ _ _ _ Hp). unfold bind. rewrite Hrun. reflexivity.
Qed.

(** C4, as the code behaves: [True] and [False] are instances of [int]
    and compare [>= 0], so the validator returns on them and both
    resolvers return the boolean itself as the duration; no failure
    event is raised. *)
Theorem bool_seconds_accepted
    (b : bool) (path : string) (env : Environment) (init : list value)
    (inp : value) (vs : VariableSample) (envv envv' : Environment) :
  stack env = (init ++ [inp])%list ->
  extract_json path inp = inr (VBool b) ->
  eval_pushes vs envv (VBool b) envv' ->
  SecondsPath._get_wait_seconds (SecondsPath.__init__ path) env
    = (inr (VBool b), env)
  /\ SecondsPathVar._get_wait_seconds (SecondsPathVar.__init__ vs) envv
    = (inr (VBool b), set_stack envv' (stack envv)).
Proof.
  intros Hs He Hp.
  assert (Hok : forall self e,
             SecondsPath._validate_seconds_value self (VBool b) e = (inr tt, e)).
  { intros self e. apply validate_returns. destruct b; reflexivity. }
  split.
  - rewrite (path_run _ _ _ _ _ Hs He). unfold bind. rewrite Hok.
    reflexivity.
  - rewrite (var_run _ _ _ _ Hp). unfold bind. rewrite Hok. reflexivity.
Qed.

(** The validator followed by [return seconds] leaves the
    environment as it found it. *)
Lemma validate_then_return_frame
    (self : SecondsPath.t) (v : value) (env : Environment) :
  snd ((SecondsPath._validate_seconds_value self v ;;; ret v) env) = env.
Proof.
  unfold bind.
  pose proof (validate_frame self v env) as Hf.
  destruct (SecondsPath._validate_seconds_value self v env) as [[e|[]] env'];
    simpl in *; exact Hf.
Qed.

Lemma path_frame (self : SecondsPath.t) (env : Environment) :
  snd (SecondsPath._get_wait_seconds self env) = env.
Proof.
  unfold SecondsPath._get_wait_seconds.
  unfold bind at 1, stack_top.
  destruct (split_last (stack env)) as [[init inp]|]; [|reflexivity].
  unfold bind at 1, call_extract_json.
  destruct (extract_json (SecondsPath.path self) inp) as [d|v];
    [reflexivity|].
  apply validate_then_return_frame.
Qed.

(** C5: the path-based resolver reads the top of the stack without
    popping it: on a non-empty stack, whatever the outcome (a returned
    value, a validation failure, a failed extraction), the stack after
    the call is the stack before it, and so is the rest of the
    environment. *)
Theorem path_resolver_keeps_stack (self : SecondsPath.t) (env : Environment) :
  stack env <> [] ->
  stack (snd (SecondsPath._get_wait_seconds self env)) = stack env
  /\ snd (SecondsPath._get_wait_seconds self env) = env.
Proof.
  intros _. rewrite path_frame. split; reflexivity.
Qed.

Lemma var_frame (vs : VariableSample) (env env' : Environment) (v : value) :
  eval_pushes vs env v env' ->
  snd (SecondsPathVar._get_wait_seconds (SecondsPathVar.__init__ vs) env)
  = set_stack env' (stack env).
Proof.
  intros Hp. rewrite (var_run _ _ _ _ Hp).
  apply validate_then_return_frame.
Qed.

(** C6: when the evaluation of the expression pushes exactly one
    value, the stack is as deep after the variable-based resolver as
    before it, whether the resolver returns or raises a validation
    failure. *)
Theorem var_resolver_stack_depth
    (vs : VariableSample) (env env' : Environment) (v : value) :
  eval_pushes vs env v env' ->
  List.length (stack (snd (SecondsPathVar._get_wait_seconds
                             (SecondsPathVar.__init__ vs) env)))
  = List.length (stack env).
Proof.
  intros Hp. rewrite (var_frame _ _ _ _ Hp). reflexivity.
Qed.

Lemma observe_validate_then_return
    (self : SecondsPath.t) (v : value) (env1 env2 : Environment) :
  observe ((SecondsPath._validate_seconds_value self v ;;; ret v) env1)
  = observe ((SecondsPath._validate_seconds_value self v ;;; ret v) env2).
Proof.
  unfold bind.
  destruct (isinstance_int v && ge_zero v) eqn:E.
  - rewrite !(validate_returns _ _ _ E). reflexivity.
  - destruct (validate_raises self v env1 E)
      as (fe1 & -> & _ & Hn1 & Ht1 & Hd1).
    destruct (validate_raises self v env2 E)
      as (fe2 & -> & _ & Hn2 & Ht2 & Hd2).
    unfold observe, failure_contents. simpl.
    rewrite Hn1, Hn2, Ht1, Ht2, Hd1, Hd2. reflexivity.
Qed.

(** C7: the variable-based resolver is the shared validator of the
    base class, run with the expression text as its path on the popped
    value; so for every raw value [v] it answers as the path-based
    resolver does for the path of that text selecting [v]: the same
    returned value, or a failure event of the same error name, event
    type, error string and cause string. *)
Theorem var_resolver_shares_validator
    (vs : VariableSample) (v : value) (envv envv' : Environment)
    (env : Environment) (init : list value) (inp : value) :
  eval_pushes vs envv v envv' ->
  stack env = (init ++ [inp])%list ->
  extract_json (expression vs) inp = inr v ->
  SecondsPath.path (SecondsPathVar.super (SecondsPathVar.__init__ vs))
    = expression vs
  /\ SecondsPathVar._get_wait_seconds (SecondsPathVar.__init__ vs) envv
    = (SecondsPath._validate_seconds_value
         (SecondsPath.__init__ (expression vs)) v ;;;
       ret v) (set_stack envv' (stack envv))
  /\ observe (SecondsPathVar._get_wait_seconds
                (SecondsPathVar.__init__ vs) envv)
    = observe (SecondsPath._get_wait_seconds
                 (SecondsPath.__init__ (expression vs)) env).
Proof.
  intros Hp Hs He. split; [reflexivity|]. split.
  - apply (var_run _ _ _ _ Hp).
  - rewrite (var_run _ _ _ _ Hp), (path_run _ _ _ _ _ Hs He).
    apply observe_validate_then_return.
Qed.

(** C8: a failure event raised by the validator, for a value of the
    wrong type as for a negative one, has the error name built from
    [StatesRuntime], the event type "ExecutionFailed", and details
    whose error is the name of [StatesRuntime] and whose cause is one
    of the two messages; the validator raises nothing else. *)
Theorem validation_failure_shape
    (self : SecondsPath.t) (v : value) (env env' : Environment) (e : exn) :
  SecondsPath._validate_seconds_value self v env = (inl e, env') ->
  exists fe c,
    e = FailureEventException fe
    /\ error_name fe = {| typ := StatesRuntime |}
    /\ event_type fe = "ExecutionFailed"
    /\ event_details fe =
         {| executionFailedEventDetails :=
              Some {| error := to_name StatesRuntime; cause := c |} |}
    /\ (c = "The SecondsPath parameter cannot be parsed as a long value: "
             ++ SecondsPath.path self ++ " == " ++ str v
        \/ c = "The SecondsPath parameter references a negative value: "
                ++ SecondsPath.path self ++ " == " ++ str v).
Proof.
  intros Hrun.
  destruct (isinstance_int v && ge_zero v) eqn:E.
  - rewrite (validate_returns _ _ _ E) in Hrun. discriminate.
  - destruct (validate_raises self v env E)
      as (fe & Hfe & _ & Hn & Ht & Hd).
    rewrite Hfe in Hrun. inversion Hrun; subst.
    exists fe. eexists. split; [reflexivity|].
    split; [exact Hn|]. split; [exact Ht|]. split; [exact Hd|].
    destruct (isinstance_int v); [right|left]; reflexivity.
Qed.

(** Resolution by the path-based resolver is a function of the wait
    specification and of the input on top of the stack: against two
    environments with the same top it answers alike (the same returned
    value, or failure events of the same contents); and since a call
    changes neither the specification, which a method only reads, nor
    the environment, a second call in the environment the first one
    left answers exactly as the first. *)
Lemma path_resolution_by_top
    (self : SecondsPath.t) (env1 env2 : Environment)
    (init1 init2 : list value) (inp : value) :
  stack env1 = (init1 ++ [inp])%list ->
  stack env2 = (init2 ++ [inp])%list ->
  observe (SecondsPath._get_wait_seconds self env1)
    = observe (SecondsPath._get_wait_seconds self env2)
  /\ SecondsPath._get_wait_seconds self
       (snd (SecondsPath._get_wait_seconds self env1))
    = SecondsPath._get_wait_seconds self env1.
Proof.
  intros H1 H2. split; [|rewrite path_frame; reflexivity].
  destruct self as [path].
  destruct (extract_json path inp) as [d|v] eqn:He.
  - change (SecondsPath.mk path) with (SecondsPath.__init__ path).
    rewrite (path_run_raised _ _ _ _ _ H1 He), (path_run_raised _ _ _ _ _ H2 He).
    reflexivity.
  - change (SecondsPath.mk path) with (SecondsPath.__init__ path).
    rewrite (path_run _ _ _ _ _ H1 He), (path_run _ _ _ _ _ H2 He).
    apply observe_validate_then_return.
Qed.

(** C10: the path-based resolver indexes the top of the stack
    unguarded. On an empty stack the call ends with the list's own
    [IndexError], the environment untouched, and not with a failure
    event; on a non-empty stack it never ends with that error, whose
    only source is the indexing. *)
Theorem path_resolver_stack_index (self : SecondsPath.t) (env : Environment) :
  (stack env = [] ->
     SecondsPath._get_wait_seconds self env
     = (inl (IndexError "list index out of range"), env))
  /\ (stack env <> [] ->
      forall msg, fst (SecondsPath._get_wait_seconds self env)
                  <> inl (IndexError msg))
  /\ ((exists msg, fst (SecondsPath._get_wait_seconds self env)
                   = inl (IndexError msg))
      <-> stack env = []).
Proof.
  assert (Hempty : stack env = [] ->
            SecondsPath._get_wait_seconds self env
            = (inl (IndexError "list index out of range"), env)).
  { intros E. unfold SecondsPath._get_wait_seconds. unfold bind at 1.
    rewrite (stack_top_empty _ E). reflexivity. }
  assert (Hfull : stack env <> [] ->
            forall msg, fst (SecondsPath._get_wait_seconds self env)
                        <> inl (IndexError msg)).
  { intros Hne msg.
    destruct (nonempty_snoc _ Hne) as (init & inp & Hs).
    destruct self as [path].
    change (SecondsPath.mk path) with (SecondsPath.__init__ path).
    destruct (extract_json path inp) as [d|v] eqn:He.
    - rewrite (path_run_raised _ _ _ _ _ Hs He). simpl. discriminate.
    - rewrite (path_run _ _ _ _ _ Hs He). unfold bind.
      destruct (isinstance_int v && ge_zero v) eqn:E.
      + rewrite (validate_returns _ _ _ E). simpl. discriminate.
      + destruct (validate_raises (SecondsPath.__init__ path) v env E)
          as (fe & -> & _).
        simpl. discriminate. }
  split; [exact Hempty|]. split; [exact Hfull|]. split.
  - intros [msg Hm]. destruct (stack env) as [|x l] eqn:Es; [reflexivity|].
    exfalso. apply (Hfull ltac:(discriminate) msg). exact Hm.
  - intros E. rewrite (Hempty E). eexists. reflexivity.
Qed.

End Properties.

(* ================================================================== *)
(** ** Further behaviour of the validator and of the two resolvers *)

Section Behaviour.
Context `{Builtins} `{Collaborators}.

Lemma accepted_seconds_check (v : value) :
  isinstance_int v && ge_zero v = true <-> accepted_seconds v.
Proof.
  unfold accepted_seconds. split.
  - destruct v as [|b|z|f|s|l|d]; simpl; try discriminate.
    + intros _. right. exists b. reflexivity.
    + unfold ge_zero. simpl. intros E. left. exists z.
      split; [reflexivity|]. apply Z.geb_le. exact E.
  - intros [(n & -> & Hn)|(b & ->)].
    + unfold ge_zero. simpl. apply Z.geb_le. exact Hn.
    + destruct b; reflexivity.
Qed.

(** The path-based resolver on an empty stack. *)
Lemma path_run_empty (self : SecondsPath.t) (env : Environment) :
  stack env = [] ->
  SecondsPath._get_wait_seconds self env
  = (inl (IndexError "list index out of range"), env).
Proof.
  intros E. unfold SecondsPath._get_wait_seconds. unfold bind at 1.
  rewrite (stack_top_empty _ E). reflexivity.
Qed.

(** The variable-based resolver, by what [eval] does: it raises; it
    returns and leaves an empty stack; it returns and leaves [v] on top. *)
Lemma var_run_raised (self : SecondsPathVar.t) (env env1 : Environment) (e : exn) :
  eval (SecondsPathVar.variable_sample self) env = (inl e, env1) ->
  SecondsPathVar._get_wait_seconds self env = (inl e, env1).
Proof.
  intros He. unfold SecondsPathVar._get_wait_seconds. unfold bind at 1.
  rewrite He. reflexivity.
Qed.

Lemma var_run_empty (self : SecondsPathVar.t) (env env1 : Environment) :
  eval (SecondsPathVar.variable_sample self) env = (inr tt, env1) ->
  stack env1 = [] ->
  SecondsPathVar._get_wait_seconds self env
  = (inl (IndexError "pop from empty list"), env1).
Proof.
  intros He Hs. unfold SecondsPathVar._get_wait_seconds. unfold bind at 1.
  rewrite He. unfold bind at 1, stack_pop. rewrite Hs. reflexivity.
Qed.

Lemma var_run_top (self : SecondsPathVar.t) (env env1 : Environment)
                  (init : list value) (v : value) :
  eval (SecondsPathVar.variable_sample self) env = (inr tt, env1) ->
  stack env1 = (init ++ [v])%list ->
  SecondsPathVar._get_wait_seconds self env
  = (SecondsPath._validate_seconds_value (SecondsPathVar.super self) v ;;;
     ret v) (set_stack env1 init).
Proof.
  intros He Hs. unfold SecondsPathVar._get_wait_seconds. unfold bind at 1.
  rewrite He. unfold bind at 1. rewrite (stack_pop_snoc _ _ _ Hs).
  reflexivity.
Qed.

(** The validator followed by [return seconds]: either the value is
    accepted and returned, or a failure event is raised. *)
Lemma validate_then_return_cases
    (self : SecondsPath.t) (v : value) (env : Environment) :
  (accepted_seconds v
   /\ (SecondsPath._validate_seconds_value self v ;;; ret v) env = (inr v, env))
  \/ (~ accepted_seconds v
      /\ exists fe,
          (SecondsPath._validate_seconds_value self v ;;; ret v) env
          = (inl (FailureEventException fe), env)).
Proof.
  unfold bind. destruct (isinstance_int v && ge_zero v) eqn:E.
  - left. split; [apply accepted_seconds_check; exact E|].
    rewrite (validate_returns _ _ _ E). reflexivity.
  - right. split.
    + intros Ha. apply accepted_seconds_check in Ha. congruence.
    + destruct (validate_raises self v env E) as (fe & Hrun & _).
      exists fe. rewrite Hrun. reflexivity.
Qed.

(** The validator returns exactly on an [int] that is not below zero
    and on the two booleans; on every other value it raises. *)
Theorem validator_accepts_iff
    (self : SecondsPath.t) (v : value) (env : Environment) :
  fst (SecondsPath._validate_seconds_value self v env) = inr tt
  <-> accepted_seconds v.
Proof.
  rewrite <- accepted_seconds_check.
  destruct (isinstance_int v && ge_zero v) eqn:E.
  - rewrite (validate_returns _ _ _ E). simpl. split; reflexivity.
  - destruct (validate_raises self v env E) as (fe & -> & _).
    simpl. split; discriminate.
Qed.

(** Whenever the path-based resolver returns a value, the stack was not
    empty, the extractor returned that value for the configured path on
    the top of the stack, the value is an accepted one, and the
    environment is as before the call. *)
Theorem path_resolver_returns_only_accepted
    (self : SecondsPath.t) (env env' : Environment) (v : value) :
  SecondsPath._get_wait_seconds self env = (inr v, env') ->
  accepted_seconds v
  /\ env' = env
  /\ exists init inp,
       stack env = (init ++ [inp])%list
       /\ extract_json (SecondsPath.path self) inp = inr v.
Proof.
  intros Hrun. destruct self as [path].
  change (SecondsPath.mk path) with (SecondsPath.__init__ path) in *.
  destruct (split_last (stack env)) as [[init inp]|] eqn:Es.
  - apply split_last_Some in Es.
    destruct (extract_json path inp) as [d|w] eqn:He.
    + rewrite (path_run_raised _ _ _ _ _ Es He) in Hrun. discriminate.
    + rewrite (path_run _ _ _ _ _ Es He) in Hrun.
      destruct (validate_then_return_cases (SecondsPath.__init__ path) w env)
        as [[Ha Hr]|[_ (fe & Hr)]]; rewrite Hr in Hrun.
      * inversion Hrun; subst. split; [exact Ha|]. split; [reflexivity|].
        exists init, inp. split; [exact Es | exact He].
      * discriminate.
  - apply split_last_None in Es.
    rewrite (path_run_empty _ _ Es) in Hrun. discriminate.
Qed.

(** Whenever the variable-based resolver returns a value, whatever the
    evaluation of the expression does, that value is an accepted one:
    the evaluation returned, the value was on top of the stack it left,
    and the resolver has removed it. *)
Theorem var_resolver_returns_only_accepted
    (self : SecondsPathVar.t) (env env' : Environment) (v : value) :
  SecondsPathVar._get_wait_seconds self env = (inr v, env') ->
  accepted_seconds v
  /\ exists env1 init,
       eval (SecondsPathVar.variable_sample self) env = (inr tt, env1)
       /\ stack env1 = (init ++ [v])%list
       /\ env' = set_stack env1 init.
Proof.
  intros Hrun.
  destruct (eval (SecondsPathVar.variable_sample self) env)
    as [[e|[]] env1] eqn:He.
  - rewrite (var_run_raised _ _ _ _ He) in Hrun. discriminate.
  - destruct (split_last (stack env1)) as [[init w]|] eqn:Es.
    + apply split_last_Some in Es.
      rewrite (var_run_top _ _ _ _ _ He Es) in Hrun.
      destruct (validate_then_return_cases (SecondsPathVar.super self) w
                  (set_stack env1 init))
        as [[Ha Hr]|[_ (fe & Hr)]]; rewrite Hr in Hrun.
      * inversion Hrun; subst. split; [exact Ha|].
        exists env1, init. repeat split. exact Es.
      * discriminate.
    + apply split_last_None in Es.
      rewrite (var_run_empty _ _ _ He Es) in Hrun. discriminate.
Qed.

(** When the extractor raises on the top of the stack, the path-based
    resolver ends with that exception, not with a failure event, and
    leaves the environment as it was. *)
Theorem path_resolver_extraction_failure
    (self : SecondsPath.t) (env : Environment) (init : list value)
    (inp : value) (description : string) :
  stack env = (init ++ [inp])%list ->
  extract_json (SecondsPath.path self) inp = inl description ->
  SecondsPath._get_wait_seconds self env = (inl (Raised description), env).
Proof.
  intros Hs He. destruct self as [path].
  exact (path_run_raised _ _ _ _ _ Hs He).
Qed.

(** When the evaluation of the expression raises, the variable-based
    resolver ends with that exception, in the environment the
    evaluation left: nothing is popped and nothing is validated. *)
Theorem var_resolver_eval_failure
    (self : SecondsPathVar.t) (env env1 : Environment) (e : exn) :
  eval (SecondsPathVar.variable_sample self) env = (inl e, env1) ->
  SecondsPathVar._get_wait_seconds self env = (inl e, env1).
Proof.
  apply var_run_raised.
Qed.

(** When the evaluation of the expression returns, the variable-based
    resolver removes exactly the top value of the stack the evaluation
    left, however many values the evaluation pushed, touches nothing
    else, and ends by returning that value or by a failure event. *)
Theorem var_resolver_pops_one
    (self : SecondsPathVar.t) (env env1 : Environment)
    (init : list value) (v : value) :
  eval (SecondsPathVar.variable_sample self) env = (inr tt, env1) ->
  stack env1 = (init ++ [v])%list ->
  snd (SecondsPathVar._get_wait_seconds self env) = set_stack env1 init
  /\ (fst (SecondsPathVar._get_wait_seconds self env) = inr v
      \/ exists fe, fst (SecondsPathVar._get_wait_seconds self env)
                    = inl (FailureEventException fe)).
Proof.
  intros He Hs. rewrite (var_run_top _ _ _ _ _ He Hs).
  destruct (validate_then_return_cases (SecondsPathVar.super self) v
              (set_stack env1 init))
    as [[_ Hr]|[_ (fe & Hr)]]; rewrite Hr; simpl.
  - split; [reflexivity|]. left. reflexivity.
  - split; [reflexivity|]. right. exists fe. reflexivity.
Qed.

(** When the evaluation of the expression returns without pushing, on
    a stack whose top is the state's input, the variable-based
    resolver takes the input for the duration: it validates the input
    and leaves the stack one value shorter than before the call. *)
Theorem var_resolver_consumes_input
    (self : SecondsPathVar.t) (env env1 : Environment)
    (init : list value) (inp : value) :
  eval (SecondsPathVar.variable_sample self) env = (inr tt, env1) ->
  stack env1 = stack env ->
  stack env = (init ++ [inp])%list ->
  SecondsPathVar._get_wait_seconds self env
  = (SecondsPath._validate_seconds_value (SecondsPathVar.super self) inp ;;;
     ret inp) (set_stack env1 init)
  /\ S (List.length (stack (snd (SecondsPathVar._get_wait_seconds self env))))
     = List.length (stack env).
Proof.
  intros He Hsame Hs. rewrite Hs in Hsame.
  rewrite (var_run_top _ _ _ _ _ He Hsame). split; [reflexivity|].
  rewrite validate_then_return_frame. simpl.
  rewrite Hs, length_app. simpl. lia.
Qed.

(** When the evaluation of the expression returns and leaves an empty
    stack, the variable-based resolver ends with the list's own
    [IndexError] of [pop], not with a failure event. *)
Theorem var_resolver_pop_empty
    (self : SecondsPathVar.t) (env env1 : Environment) :
  eval (SecondsPathVar.variable_sample self) env = (inr tt, env1) ->
  stack env1 = [] ->
  SecondsPathVar._get_wait_seconds self env
  = (inl (IndexError "pop from empty list"), env1).
Proof.
  apply var_run_empty.
Qed.

(** The cause tells the kind of failure: the cause raised for a value
    that is no instance of [int] is never the cause raised for one that
    is, whatever the two paths and the two values. *)
Theorem failure_cause_tells_kind
    (self1 self2 : SecondsPath.t) (v1 v2 : value) (env1 env2 : Environment) :
  isinstance_int v1 = false ->
  isinstance_int v2 = true ->
  raised_cause (SecondsPath._validate_seconds_value self1 v1 env1)
  <> raised_cause (SecondsPath._validate_seconds_value self2 v2 env2).
Proof.
  intros H1 H2.
  destruct (validate_raises self1 v1 env1) as (fe1 & -> & _ & _ & _ & Hd1).
  { rewrite H1. reflexivity. }
  unfold raised_cause at 1. simpl. unfold failure_cause at 1.
  rewrite Hd1, H1. simpl.
  destruct (isinstance_int v2 && ge_zero v2) eqn:E.
  - rewrite (validate_returns _ _ _ E). unfold raised_cause. simpl.
    discriminate.
  - destruct (validate_raises self2 v2 env2 E) as (fe2 & -> & _ & _ & _ & Hd2).
    unfold raised_cause. simpl. unfold failure_cause.
    rewrite Hd2, H2. simpl. intros Heq. inversion Heq.
Qed.

(** The path-based resolver looks at the stack only: against two
    environments of the same stack it answers alike. *)
Lemma path_observe_by_stack (self : SecondsPath.t) (env1 env2 : Environment) :
  stack env1 = stack env2 ->
  observe (SecondsPath._get_wait_seconds self env1)
  = observe (SecondsPath._get_wait_seconds self env2).
Proof.
  intros Hs. destruct self as [path].
  change (SecondsPath.mk path) with (SecondsPath.__init__ path).
  destruct (split_last (stack env1)) as [[init inp]|] eqn:Es.
  - apply split_last_Some in Es. assert (Es2 := Es). rewrite Hs in Es2.
    destruct (extract_json path inp) as [d|v] eqn:He.
    + rewrite (path_run_raised _ _ _ _ _ Es He),
              (path_run_raised _ _ _ _ _ Es2 He). reflexivity.
    + rewrite (path_run _ _ _ _ _ Es He), (path_run _ _ _ _ _ Es2 He).
      apply observe_validate_then_return.
  - apply split_last_None in Es. assert (Es2 := Es). rewrite Hs in Es2.
    rewrite (path_run_empty _ _ Es), (path_run_empty _ _ Es2). reflexivity.
Qed.

(** A variable-based resolution whose evaluation pushes exactly one
    value leaves the input in place for a path-based resolution that
    follows: the latter answers as it would have before, whether the
    former returned or raised a validation failure. *)
Theorem path_resolution_after_var_resolution
    (vs : VariableSample) (sp : SecondsPath.t)
    (env env' : Environment) (v : value) :
  eval_pushes vs env v env' ->
  observe (SecondsPath._get_wait_seconds sp
             (snd (SecondsPathVar._get_wait_seconds
                     (SecondsPathVar.__init__ vs) env)))
  = observe (SecondsPath._get_wait_seconds sp env).
Proof.
  intros Hp. apply path_observe_by_stack.
  rewrite (var_frame _ _ _ _ Hp). reflexivity.
Qed.

(** The variable-based resolver answers by how the evaluation of its
    expression ends: when the evaluation ends alike in two environments
    (it returns in both or raises the same exception in both, and
    leaves the same value on top of the stack, or an empty stack in
    both), the resolver answers alike. *)
Lemma var_resolution_by_evaluation
    (self : SecondsPathVar.t) (env1 env2 : Environment) :
  fst (eval (SecondsPathVar.variable_sample self) env1)
    = fst (eval (SecondsPathVar.variable_sample self) env2) ->
  top_of_stack (snd (eval (SecondsPathVar.variable_sample self) env1))
    = top_of_stack (snd (eval (SecondsPathVar.variable_sample self) env2)) ->
  observe (SecondsPathVar._get_wait_seconds self env1)
  = observe (SecondsPathVar._get_wait_seconds self env2).
Proof.
  destruct (eval (SecondsPathVar.variable_sample self) env1)
    as [[e1|[]] a1] eqn:E1;
  destruct (eval (SecondsPathVar.variable_sample self) env2)
    as [[e2|[]] a2] eqn:E2;
  simpl; intros Hfst Htop; try discriminate.
  - inversion Hfst; subst e2.
    rewrite (var_run_raised _ _ _ _ E1), (var_run_raised _ _ _ _ E2).
    reflexivity.
  - unfold top_of_stack in Htop.
    destruct (split_last (stack a1)) as [[i1 v1]|] eqn:S1;
    destruct (split_last (stack a2)) as [[i2 v2]|] eqn:S2;
    simpl in Htop; try discriminate.
    + inversion Htop; subst v2.
      apply split_last_Some in S1. apply split_last_Some in S2.
      rewrite (var_run_top _ _ _ _ _ E1 S1), (var_run_top _ _ _ _ _ E2 S2).
      apply observe_validate_then_return.
    + apply split_last_None in S1. apply split_last_None in S2.
      rewrite (var_run_empty _ _ _ E1 S1), (var_run_empty _ _ _ E2 S2).
      reflexivity.
Qed.

(** C9: resolution is a function of the wait specification, which a
    call only reads, and of the input data, for both variants of the
    specification. Path-based: against two environments with the same
    input on top of the stack the resolver answers alike (the same
    returned value, or failure events of the same contents), and a
    second call in the environment the first one left answers exactly
    as the first. Variable-based: against two environments in which the
    evaluation of the expression ends alike the resolver answers alike;
    and when the evaluation pushes exactly one value, the same in a
    second call made in the environment the first one left, the second
    call answers as the first and the stack is again as it was. *)
Theorem wait_resolution_deterministic :
  (forall (self : SecondsPath.t) (env1 env2 : Environment)
          (init1 init2 : list value) (inp : value),
      stack env1 = (init1 ++ [inp])%list ->
      stack env2 = (init2 ++ [inp])%list ->
      observe (SecondsPath._get_wait_seconds self env1)
        = observe (SecondsPath._get_wait_seconds self env2)
      /\ SecondsPath._get_wait_seconds self
           (snd (SecondsPath._get_wait_seconds self env1))
        = SecondsPath._get_wait_seconds self env1)
  /\ (forall (self : SecondsPathVar.t) (env1 env2 : Environment),
      fst (eval (SecondsPathVar.variable_sample self) env1)
        = fst (eval (SecondsPathVar.variable_sample self) env2) ->
      top_of_stack (snd (eval (SecondsPathVar.variable_sample self) env1))
        = top_of_stack (snd (eval (SecondsPathVar.variable_sample self) env2)) ->
      observe (SecondsPathVar._get_wait_seconds self env1)
        = observe (SecondsPathVar._get_wait_seconds self env2))
  /\ (forall (vs : VariableSample) (env env' env'' : Environment) (v : value),
      eval_pushes vs env v env' ->
      eval_pushes vs
        (snd (SecondsPathVar._get_wait_seconds (SecondsPathVar.__init__ vs) env))
        v env'' ->
      observe (SecondsPathVar._get_wait_seconds (SecondsPathVar.__init__ vs)
                 (snd (SecondsPathVar._get_wait_seconds
                         (SecondsPathVar.__init__ vs) env)))
        = observe (SecondsPathVar._get_wait_seconds
                     (SecondsPathVar.__init__ vs) env)
      /\ stack (snd (SecondsPathVar._get_wait_seconds
                       (SecondsPathVar.__init__ vs)
                       (snd (SecondsPathVar._get_wait_seconds
                               (SecondsPathVar.__init__ vs) env))))
        = stack env).
Proof.
  split; [exact path_resolution_by_top|]. split.
  - exact var_resolution_by_evaluation.
  - intros vs env env' env'' v Hp1 Hp2. split.
    + rewrite (var_run _ _ _ _ Hp2), (var_run _ _ _ _ Hp1).
      apply observe_validate_then_return.
    + rewrite (var_frame _ _ _ _ Hp2), (var_frame _ _ _ _ Hp1). reflexivity.
Qed.

End Behaviour.

(* ================================================================== *)
(** ** The properties on the sample documents *)

Section Scenarios.
#[local] Existing Instance Sample.builtins.
#[local] Existing Instance Sample.collaborators.

(** [{"wait": 5}] under [$.wait], and an expression evaluating to 5. *)
Lemma nonneg_seconds_returned_unchanged_witness :
  SecondsPath._get_wait_seconds (SecondsPath.__init__ "$.wait")
      (Sample.env (Sample.doc (VInt 5)))
    = (inr (VInt 5), Sample.env (Sample.doc (VInt 5)))
  /\ SecondsPathVar._get_wait_seconds
      (SecondsPathVar.__init__ (Sample.variable (VInt 5)))
      (Sample.env VNone)
    = (inr (VInt 5), Sample.env VNone).
Proof.
  refine (nonneg_seconds_returned_unchanged 5 "$.wait"
            (Sample.env (Sample.doc (VInt 5))) [VStr "below"]
            (Sample.doc (VInt 5)) (Sample.variable (VInt 5))
            (Sample.env VNone)
            (set_stack (Sample.env VNone) [VStr "below"; VNone; VInt 5])
            _ _ _ _).
  - lia.
  - reflexivity.
  - reflexivity.
  - split; reflexivity.
Defined.

(** [{"wait": -1}] under [$.wait], and an expression evaluating to -1. *)
Lemma negative_seconds_raise_failure_witness :
  (exists fe,
      SecondsPath._get_wait_seconds (SecondsPath.__init__ "$.wait")
          (Sample.env (Sample.doc (VInt (-1))))
        = (inl (FailureEventException fe),
           Sample.env (Sample.doc (VInt (-1))))
      /\ failure_cause fe =
           Some "The SecondsPath parameter references a negative value: $.wait == -1")
  /\ (exists fe,
      SecondsPathVar._get_wait_seconds
          (SecondsPathVar.__init__ (Sample.variable (VInt (-1))))
          (Sample.env VNone)
        = (inl (FailureEventException fe), Sample.env VNone)
      /\ failure_cause fe =
           Some "The SecondsPath parameter references a negative value: $.wait == -1").
Proof.
  refine (negative_seconds_raise_failure (-1) "$.wait"
            (Sample.env (Sample.doc (VInt (-1)))) [VStr "below"]
            (Sample.doc (VInt (-1))) (Sample.variable (VInt (-1)))
            (Sample.env VNone)
            (set_stack (Sample.env VNone) [VStr "below"; VNone; VInt (-1)])
            _ _ _ _).
  - lia.
  - reflexivity.
  - reflexivity.
  - split; reflexivity.
Defined.

(** [{"wait": 3.0}] under [$.wait], and an expression evaluating to 3.0. *)
Lemma non_integral_seconds_raise_failure_witness :
  (exists fe,
      SecondsPath._get_wait_seconds (SecondsPath.__init__ "$.wait")
          (Sample.env (Sample.doc (VFloat 3)))
        = (inl (FailureEventException fe),
           Sample.env (Sample.doc (VFloat 3)))
      /\ failure_cause fe =
           Some "The SecondsPath parameter cannot be parsed as a long value: $.wait == 3.0")
  /\ (exists fe,
      SecondsPathVar._get_wait_seconds
          (SecondsPathVar.__init__ (Sample.variable (VFloat 3)))
          (Sample.env VNone)
        = (inl (FailureEventException fe), Sample.env VNone)
      /\ failure_cause fe =
           Some "The SecondsPath parameter cannot be parsed as a long value: $.wait == 3.0").
Proof.
  refine (non_integral_seconds_raise_failure (VFloat 3) "$.wait"
            (Sample.env (Sample.doc (VFloat 3))) [VStr "below"]
            (Sample.doc (VFloat 3)) (Sample.variable (VFloat 3))
            (Sample.env VNone)
            (set_stack (Sample.env VNone) [VStr "below"; VNone; VFloat 3])
            _ _ _ _).
  - exact I.
  - reflexivity.
  - reflexivity.
  - split; reflexivity.
Defined.

(** [{"wait": true}] under [$.wait], and an expression evaluating to
    [True]: the boolean comes back as the duration. *)
Lemma bool_seconds_accepted_witness :
  SecondsPath._get_wait_seconds (SecondsPath.__init__ "$.wait")
      (Sample.env (Sample.doc (VBool true)))
    = (inr (VBool true), Sample.env (Sample.doc (VBool true)))
  /\ SecondsPathVar._get_wait_seconds
      (SecondsPathVar.__init__ (Sample.variable (VBool true)))
      (Sample.env VNone)
    = (inr (VBool true), Sample.env VNone).
Proof.
  refine (bool_seconds_accepted true "$.wait"
            (Sample.env (Sample.doc (VBool true))) [VStr "below"]
            (Sample.doc (VBool true)) (Sample.variable (VBool true))
            (Sample.env VNone)
            (set_stack (Sample.env VNone) [VStr "below"; VNone; VBool true])
            _ _ _).
  - reflexivity.
  - reflexivity.
  - split; reflexivity.
Defined.

(** The stack under [{"wait": "soon"}], a validation failure. *)
Lemma path_resolver_keeps_stack_witness :
  stack (snd (SecondsPath._get_wait_seconds (SecondsPath.__init__ "$.wait")
                (Sample.env (Sample.doc (VStr "soon")))))
    = [VStr "below"; Sample.doc (VStr "soon")]
  /\ snd (SecondsPath._get_wait_seconds (SecondsPath.__init__ "$.wait")
            (Sample.env (Sample.doc (VStr "soon"))))
    = Sample.env (Sample.doc (VStr "soon")).
Proof.
  refine (path_resolver_keeps_stack (SecondsPath.__init__ "$.wait")
            (Sample.env (Sample.doc (VStr "soon"))) _).
  simpl. discriminate.
Defined.

(** An expression evaluating to -7, a validation failure, on a stack
    of depth 2. *)
Lemma var_resolver_stack_depth_witness :
  List.length (stack (snd (SecondsPathVar._get_wait_seconds
                             (SecondsPathVar.__init__
                                (Sample.variable (VInt (-7))))
                             (Sample.env VNone))))
  = 2.
Proof.
  refine (var_resolver_stack_depth (Sample.variable (VInt (-7)))
            (Sample.env VNone)
            (set_stack (Sample.env VNone) [VStr "below"; VNone; VInt (-7)])
            (VInt (-7)) _).
  split; reflexivity.
Defined.

(** The expression [$.wait] evaluating to "soon", against the path
    [$.wait] selecting "soon" in [{"wait": "soon"}]. *)
Lemma var_resolver_shares_validator_witness :
  observe (SecondsPathVar._get_wait_seconds
             (SecondsPathVar.__init__ (Sample.variable (VStr "soon")))
             (Sample.env VNone))
  = observe (SecondsPath._get_wait_seconds (SecondsPath.__init__ "$.wait")
               (Sample.env (Sample.doc (VStr "soon")))).
Proof.
  refine (proj2 (proj2 (var_resolver_shares_validator
            (Sample.variable (VStr "soon")) (VStr "soon")
            (Sample.env VNone)
            (set_stack (Sample.env VNone)
                       [VStr "below"; VNone; VStr "soon"])
            (Sample.env (Sample.doc (VStr "soon"))) [VStr "below"]
            (Sample.doc (VStr "soon")) _ _ _))).
  - split; reflexivity.
  - reflexivity.
  - reflexivity.
Defined.

(** The failure event of the validator on -1 under the path [$.wait]. *)
Lemma validation_failure_shape_witness :
  exists fe,
    SecondsPath._validate_seconds_value (SecondsPath.__init__ "$.wait")
        (VInt (-1)) (Sample.env VNone)
      = (inl (FailureEventException fe), Sample.env VNone)
    /\ error_name fe = {| typ := Sample.StatesRuntime |}
    /\ event_type fe = "ExecutionFailed"
    /\ event_details fe =
         {| executionFailedEventDetails :=
              Some {| error := "States.Runtime";
                      cause := "The SecondsPath parameter references a negative value: $.wait == -1" |} |}.
Proof.
  destruct (validation_failure_shape (SecondsPath.__init__ "$.wait")
              (VInt (-1)) (Sample.env VNone) _ _ eq_refl)
    as (fe & c & He & Hn & Ht & Hd & _).
  exists fe. injection He as <-.
  split; [reflexivity|]. split; [exact Hn|]. split; [exact Ht|].
  reflexivity.
Defined.

(** [{"wait": 5}] on top of two different stacks; and an expression
    evaluating to -7 over a stack of two values and over an empty one. *)
Lemma wait_resolution_deterministic_witness :
  (observe (SecondsPath._get_wait_seconds (SecondsPath.__init__ "$.wait")
              (Sample.env (Sample.doc (VInt 5))))
     = observe (SecondsPath._get_wait_seconds (SecondsPath.__init__ "$.wait")
                  {| stack := [Sample.doc (VInt 5)]; other := tt |})
   /\ SecondsPath._get_wait_seconds (SecondsPath.__init__ "$.wait")
        (snd (SecondsPath._get_wait_seconds (SecondsPath.__init__ "$.wait")
                (Sample.env (Sample.doc (VInt 5)))))
     = SecondsPath._get_wait_seconds (SecondsPath.__init__ "$.wait")
         (Sample.env (Sample.doc (VInt 5))))
  /\ observe (SecondsPathVar._get_wait_seconds
                (SecondsPathVar.__init__ (Sample.variable (VInt (-7))))
                (Sample.env VNone))
     = observe (SecondsPathVar._get_wait_seconds
                  (SecondsPathVar.__init__ (Sample.variable (VInt (-7))))
                  Sample.empty_env)
  /\ (observe (SecondsPathVar._get_wait_seconds
                 (SecondsPathVar.__init__ (Sample.variable (VInt (-7))))
                 (snd (SecondsPathVar._get_wait_seconds
                         (SecondsPathVar.__init__ (Sample.variable (VInt (-7))))
                         (Sample.env VNone))))
      = observe (SecondsPathVar._get_wait_seconds
                   (SecondsPathVar.__init__ (Sample.variable (VInt (-7))))
                   (Sample.env VNone))
      /\ stack (snd (SecondsPathVar._get_wait_seconds
                       (SecondsPathVar.__init__ (Sample.variable (VInt (-7))))
                       (snd (SecondsPathVar._get_wait_seconds
                               (SecondsPathVar.__init__
                                  (Sample.variable (VInt (-7))))
                               (Sample.env VNone)))))
        = stack (Sample.env VNone)).
Proof.
  split; [|split].
  - refine (proj1 wait_resolution_deterministic
              (SecondsPath.__init__ "$.wait")
              (Sample.env (Sample.doc (VInt 5)))
              {| stack := [Sample.doc (VInt 5)]; other := tt |}
              [VStr "below"] [] (Sample.doc (VInt 5)) _ _);
      reflexivity.
  - refine (proj1 (proj2 wait_resolution_deterministic)
              (SecondsPathVar.__init__ (Sample.variable (VInt (-7))))
              (Sample.env VNone) Sample.empty_env _ _);
      reflexivity.
  - refine (proj2 (proj2 wait_resolution_deterministic)
              (Sample.variable (VInt (-7))) (Sample.env VNone)
              (set_stack (Sample.env VNone) [VStr "below"; VNone; VInt (-7)])
              (set_stack (Sample.env VNone) [VStr "below"; VNone; VInt (-7)])
              (VInt (-7)) _ _);
      split; reflexivity.
Defined.

(** [{"wait": "soon"}] under [$.wait]: the string is inserted in the
    cause as it is, without quotes. *)
Example scenario_wait_soon :
  option_map failure_cause
    (match fst (SecondsPath._get_wait_seconds (SecondsPath.__init__ "$.wait")
                  (Sample.env (Sample.doc (VStr "soon")))) with
     | inl (FailureEventException fe) => Some fe
     | _ => None
     end)
  = Some (Some "The SecondsPath parameter cannot be parsed as a long value: $.wait == soon").
Proof. reflexivity. Qed.

(** A list is inserted as its [repr]. *)
Example scenario_wait_list :
  str (VList [VInt 1; VStr "a"; VDict [("k", VNone); ("b", VBool false)]])
  = "[1, 'a', {'k': None, 'b': False}]".
Proof. reflexivity. Qed.

End Scenarios.

(* ================================================================== *)
(** ** The further behaviour on the sample documents *)

Section BehaviourScenarios.
#[local] Existing Instance Sample.builtins.
#[local] Existing Instance Sample.collaborators.

(** [{"wait": 5}] under [$.wait]: what the returned 5 tells. *)
Lemma path_resolver_returns_only_accepted_witness :
  accepted_seconds (VInt 5)
  /\ Sample.env (Sample.doc (VInt 5)) = Sample.env (Sample.doc (VInt 5))
  /\ exists init inp,
       stack (Sample.env (Sample.doc (VInt 5))) = (init ++ [inp])%list
       /\ extract_json "$.wait" inp = inr (VInt 5).
Proof.
  refine (path_resolver_returns_only_accepted (SecondsPath.__init__ "$.wait")
            (Sample.env (Sample.doc (VInt 5)))
            (Sample.env (Sample.doc (VInt 5))) (VInt 5) _).
  reflexivity.
Defined.

(** An evaluation that pushes "x" and then 5: what the returned 5 tells. *)
Lemma var_resolver_returns_only_accepted_witness :
  accepted_seconds (VInt 5)
  /\ exists env1 init,
       eval (Sample.pushing_two (VStr "x") (VInt 5)) (Sample.env VNone)
         = (inr tt, env1)
       /\ stack env1 = (init ++ [VInt 5])%list
       /\ {| stack := [VStr "below"; VNone; VStr "x"]; other := tt |}
          = set_stack env1 init.
Proof.
  refine (var_resolver_returns_only_accepted
            (SecondsPathVar.__init__ (Sample.pushing_two (VStr "x") (VInt 5)))
            (Sample.env VNone)
            {| stack := [VStr "below"; VNone; VStr "x"]; other := tt |}
            (VInt 5) _).
  reflexivity.
Defined.

(** [{"wait": 5}] under [$.delay]: the key is missing. *)
Lemma path_resolver_extraction_failure_witness :
  SecondsPath._get_wait_seconds (SecondsPath.__init__ "$.delay")
      (Sample.env (Sample.doc (VInt 5)))
  = (inl (Raised "NoSuchJsonPathError"), Sample.env (Sample.doc (VInt 5))).
Proof.
  refine (path_resolver_extraction_failure (SecondsPath.__init__ "$.delay")
            (Sample.env (Sample.doc (VInt 5))) [VStr "below"]
            (Sample.doc (VInt 5)) "NoSuchJsonPathError" _ _);
    reflexivity.
Defined.

(** An evaluation that raises. *)
Lemma var_resolver_eval_failure_witness :
  SecondsPathVar._get_wait_seconds
      (SecondsPathVar.__init__ (Sample.raising_variable "undefined variable"))
      (Sample.env VNone)
  = (inl (Raised "undefined variable"), Sample.env VNone).
Proof.
  refine (var_resolver_eval_failure
            (SecondsPathVar.__init__ (Sample.raising_variable "undefined variable"))
            (Sample.env VNone) (Sample.env VNone)
            (Raised "undefined variable") _).
  reflexivity.
Defined.

(** An evaluation that pushes "x" and then -3: only -3 is removed. *)
Lemma var_resolver_pops_one_witness :
  snd (SecondsPathVar._get_wait_seconds
         (SecondsPathVar.__init__ (Sample.pushing_two (VStr "x") (VInt (-3))))
         (Sample.env VNone))
    = {| stack := [VStr "below"; VNone; VStr "x"]; other := tt |}
  /\ (fst (SecondsPathVar._get_wait_seconds
             (SecondsPathVar.__init__
                (Sample.pushing_two (VStr "x") (VInt (-3))))
             (Sample.env VNone))
        = inr (VInt (-3))
      \/ exists fe,
           fst (SecondsPathVar._get_wait_seconds
                  (SecondsPathVar.__init__
                     (Sample.pushing_two (VStr "x") (VInt (-3))))
                  (Sample.env VNone))
           = inl (FailureEventException fe)).
Proof.
  refine (var_resolver_pops_one
            (SecondsPathVar.__init__ (Sample.pushing_two (VStr "x") (VInt (-3))))
            (Sample.env VNone)
            {| stack := [VStr "below"; VNone; VStr "x"; VInt (-3)];
               other := tt |}
            [VStr "below"; VNone; VStr "x"] (VInt (-3)) _ _);
    reflexivity.
Defined.

(** An evaluation that pushes nothing, over the input 4: the input is
    returned as the duration and is gone from the stack. *)
Lemma var_resolver_consumes_input_witness :
  SecondsPathVar._get_wait_seconds
      (SecondsPathVar.__init__ Sample.silent_variable) (Sample.env (VInt 4))
    = (inr (VInt 4), {| stack := [VStr "below"]; other := tt |})
  /\ S (List.length
          (stack (snd (SecondsPathVar._get_wait_seconds
                         (SecondsPathVar.__init__ Sample.silent_variable)
                         (Sample.env (VInt 4))))))
     = 2.
Proof.
  refine (var_resolver_consumes_input
            (SecondsPathVar.__init__ Sample.silent_variable)
            (Sample.env (VInt 4)) (Sample.env (VInt 4))
            [VStr "below"] (VInt 4) _ _ _);
    reflexivity.
Defined.

(** An evaluation that pushes nothing, over an empty stack. *)
Lemma var_resolver_pop_empty_witness :
  SecondsPathVar._get_wait_seconds
      (SecondsPathVar.__init__ Sample.silent_variable) Sample.empty_env
  = (inl (IndexError "pop from empty list"), Sample.empty_env).
Proof.
  refine (var_resolver_pop_empty
            (SecondsPathVar.__init__ Sample.silent_variable)
            Sample.empty_env Sample.empty_env _ _);
    reflexivity.
Defined.

(** The string "-1" and the integer -1 under the same path: the text
    after the colon is the same, the causes are not. *)
Lemma failure_cause_tells_kind_witness :
  raised_cause (SecondsPath._validate_seconds_value
                  (SecondsPath.__init__ "$.wait") (VStr "-1") (Sample.env VNone))
    = Some "The SecondsPath parameter cannot be parsed as a long value: $.wait == -1"
  /\ raised_cause (SecondsPath._validate_seconds_value
                     (SecondsPath.__init__ "$.wait") (VInt (-1)) (Sample.env VNone))
    = Some "The SecondsPath parameter references a negative value: $.wait == -1"
  /\ raised_cause (SecondsPath._validate_seconds_value
                     (SecondsPath.__init__ "$.wait") (VStr "-1") (Sample.env VNone))
     <> raised_cause (SecondsPath._validate_seconds_value
                        (SecondsPath.__init__ "$.wait") (VInt (-1))
                        (Sample.env VNone)).
Proof.
  split; [reflexivity|]. split; [reflexivity|].
  refine (failure_cause_tells_kind (SecondsPath.__init__ "$.wait")
            (SecondsPath.__init__ "$.wait") (VStr "-1") (VInt (-1))
            (Sample.env VNone) (Sample.env VNone) _ _);
    reflexivity.
Defined.

(** An expression evaluating to -7, a validation failure, and then
    [$.wait] on the input [{"wait": 5}], still in place. *)
Lemma path_resolution_after_var_resolution_witness :
  observe (SecondsPath._get_wait_seconds (SecondsPath.__init__ "$.wait")
             (snd (SecondsPathVar._get_wait_seconds
                     (SecondsPathVar.__init__ (Sample.variable (VInt (-7))))
                     (Sample.env (Sample.doc (VInt 5))))))
  = observe (SecondsPath._get_wait_seconds (SecondsPath.__init__ "$.wait")
               (Sample.env (Sample.doc (VInt 5)))).
Proof.
  refine (path_resolution_after_var_resolution
            (Sample.variable (VInt (-7))) (SecondsPath.__init__ "$.wait")
            (Sample.env (Sample.doc (VInt 5)))
            (set_stack (Sample.env (Sample.doc (VInt 5)))
                       [VStr "below"; Sample.doc (VInt 5); VInt (-7)])
            (VInt (-7)) _).
  split; reflexivity.
Defined.

End BehaviourScenarios.
